(** * The preprocessing module of acn_project

    A shallow embedding of [src/preprocessing/preprocessing.py] and the
    properties its specification states about it.

    The module has eight public functions.  Each of them has a signature, a
    docstring describing the behaviour expected of it, and a body made of a
    single statement, [raise NotImplementedError(...)].  The embedding follows
    the bodies; the docstrings are quoted next to the definitions they
    document. *)

From Stdlib Require Import String Ascii ZArith List.
From stdpp Require Import base option strings gmap.
Import ListNotations.
Open Scope string_scope.

(** ** Python values, exceptions and computations *)

Module Py.

(** What a parameter annotated [Any] may hold.  A [str] is kept as the
    string of its UTF-8 bytes; no function of the module looks inside a
    text, so nothing below depends on that choice. *)
#[warnings="-register-all"] Inductive pyval : Type :=
| PyNone
| PyBool (b : bool)
| PyInt (n : Z)
| PyStr (s : string)
| PyList (xs : list pyval)
| PyDict (d : gmap string pyval).

(** Exception classes.  The source raises [NotImplementedError] only and
    defines no exception class of its own; the other four are the error
    taxonomy of the specification (section 7), listed here so that
    statements about them can be written down. *)
Inductive exn_class : Type :=
| NotImplementedError
| InvalidFormError
| UnsupportedMethodError
| InvalidOptionError
| CapabilityUnavailableError.

#[global] Instance exn_class_eq_dec : EqDecision exn_class.
Proof. solve_decision. Defined.

(** An exception object: its class and the message it was built with. *)
Record exn : Type := Exn { exn_cls : exn_class; exn_msg : string }.

(** How a call ends: with a value, or with an exception on its way to the
    caller. *)
Inductive outcome (A : Type) : Type :=
| Returned (a : A)
| Raised (e : exn).
Arguments Returned {A} a.
Arguments Raised {A} e.

(** The mutable objects the caller holds (lists, dictionaries, anything
    reachable from the arguments), by object identity. *)
Abbreviation store := (gmap nat pyval).

(** A Python computation: it starts in a store, ends with an outcome and
    leaves a store behind.  An exception does not roll anything back: the
    store is the one reached when the exception was raised. *)
Definition py (A : Type) : Type := store -> outcome A * store.

Definition ret {A} (a : A) : py A := fun st => (Returned a, st).

Definition raise {A} (e : exn) : py A := fun st => (Raised e, st).

Definition bind {A B} (c : py A) (k : A -> py B) : py B :=
  fun st =>
    match c st with
    | (Returned a, st') => k a st'
    | (Raised e, st') => (Raised e, st')
    end.

(** The value a computation returned, if it returned. *)
Definition returned {A} (r : outcome A * store) : option A :=
  match r.1 with Returned a => Some a | Raised _ => None end.

(** The class of the exception a computation raised, if it raised. *)
Definition raised_class {A} (r : outcome A * store) : option exn_class :=
  match r.1 with Returned _ => None | Raised e => Some (exn_cls e) end.

(** The store a computation leaves behind. *)
Definition final_store {A} (r : outcome A * store) : store := r.2.

End Py.
Export Py.

(** [py] is a monad in the sense of stdpp, whose notation [x ← c; k] the
    definitions below use. *)
#[global] Instance py_ret : MRet py := @ret.
#[global] Instance py_bind : MBind py := fun A B k c => bind c k.

(** ** The functions of the module

    Parameters follow the annotations of the source: [Optional[T]] is
    [option T], [Sequence[str]] and [List[str]] are [list string],
    [Dict[str, Any]] is a finite map from strings to values, [int] is [Z].
    Every parameter is explicit; the defaults of the source are collected in
    [Default] below. *)

(** [ocr_correction], lines 21-43.  Docstring: "Tokenize and run model-based
    correction on noisy OCR text. [...] Return corrected text.  TODO:
    implement inference, batching, and model I/O." *)
Definition ocr_correction (text : string) (model_path : option string)
    (use_remote : bool) (device : string) (batch_size : Z) (verbose : bool)
  : py string :=
  raise (Exn NotImplementedError
           "Implement OCR correction using the chosen model/service.").

(** [normalize_unicode], lines 46-64.  Docstring: "form: one of 'NFC', 'NFD',
    'NFKC', 'NFKD'. [...] Apply unicodedata.normalize(form, text). [...]
    Return normalized text.  TODO: implement category filtering and
    replacement policy." *)
Definition normalize_unicode (text : string) (form : string)
    (remove_unsupported : bool) (allowed_categories : option (list string))
  : py string :=
  raise (Exn NotImplementedError
           "Implement Unicode normalization and filtering.").

(** [lowercase], lines 67-78.  Docstring: "Return a lower-cased version of
    text, with optional heuristic exceptions when aggressive=False.  TODO:
    implement language-aware handling if required." *)
Definition lowercase (text : string) (aggressive : bool) : py string :=
  raise (Exn NotImplementedError
           "Implement lowercasing with optional heuristics.").

(** [split_sentences], lines 81-98.  Docstring: "method: 'simple' (regex) or
    'punkt'/'spacy' for model-based splitting. [...] Return a list of
    sentence strings, cleaned of leading/trailing whitespace.  TODO: implement
    chosen sentence segmentation method and edge-case handling." *)
Definition split_sentences (text : string) (method : string)
    (language : string) (keep_line_breaks : bool) : py (list string) :=
  raise (Exn NotImplementedError
           "Implement sentence splitting using the chosen method.").

(** [handle_broken_words], lines 101-118.  Docstring: "join_hyphenated: join
    words that were split with a hyphen at line end.  max_line_gap: maximum
    number of intervening newlines allowed when rejoining (0 = immediate line
    break).  preserve_tokens: tokens that should not be joined. [...] Detect
    patterns like 'exam-\nple' and convert to 'example'.  TODO: implement
    robust heuristics and optional dictionary lookup." *)
Definition handle_broken_words (text : string) (join_hyphenated : bool)
    (max_line_gap : Z) (preserve_tokens : option (list string)) : py string :=
  raise (Exn NotImplementedError "Implement broken-word rejoining logic.").

(** [normalize_whitespace], lines 121-138.  Docstring: "collapse_spaces:
    replace sequences of spaces/tabs with a single space.  collapse_newlines:
    replace multiple consecutive newlines with a single newline.  trim: strip
    leading/trailing whitespace from the whole text. [...] TODO: implement
    regex-based normalization with configurable options." *)
Definition normalize_whitespace (text : string) (collapse_spaces : bool)
    (collapse_newlines : bool) (trim : bool) : py string :=
  raise (Exn NotImplementedError "Implement whitespace normalization.").

(** [normalize_quotes_and_accents], lines 141-160.  Docstring: "Standardize
    punctuation characters that commonly vary in OCR output. [...] TODO:
    implement mapping tables and optional transliteration." *)
Definition normalize_quotes_and_accents (text : string)
    (map_smart_quotes : bool) (normalize_apostrophes : bool)
    (ascii_fallback : bool) (accent_map : option (gmap string string))
  : py string :=
  raise (Exn NotImplementedError "Implement quote and accent normalization.").

(** [preprocess_pipeline], lines 163-196.  Docstring: "per-step booleans to
    enable/disable each preprocessing stage [...] Apply steps in a sensible
    order: 1) OCR correction (optional) 2) Unicode normalization 3) Normalize
    quotes/apostrophes/accents 4) Handle broken words 5) Lowercase (optional)
    6) Whitespace normalization 7) Sentence splitting -> return list of
    sentences.  Return the final list of preprocessed sentences.  TODO:
    implement calling sequence, thread-safety, progress reporting, and unit
    tests."  The body calls no stage. *)
Definition preprocess_pipeline (text : string)
    (do_ocr_correction do_unicode_normalize do_lowercase do_handle_broken
       do_split_sentences do_whitespace_normalize do_quote_normalize : bool)
    (ocr_options unicode_options split_options broken_options
       whitespace_options quote_options : option (gmap string pyval))
  : py (list string) :=
  raise (Exn NotImplementedError
           "Implement the preprocessing pipeline orchestration.").

(** The default values of the signatures, by function. *)
Module Default.
(* ocr_correction *)
Definition model_path : option string := None.
Definition use_remote : bool := false.
Definition device : string := "cpu".
Definition batch_size : Z := 32.
Definition verbose : bool := false.
(* normalize_unicode *)
Definition form : string := "NFC".
Definition remove_unsupported : bool := true.
Definition allowed_categories : option (list string) := None.
(* lowercase *)
Definition aggressive : bool := false.
(* split_sentences *)
Definition method : string := "simple".
Definition language : string := "it".
Definition keep_line_breaks : bool := false.
(* handle_broken_words *)
Definition join_hyphenated : bool := true.
Definition max_line_gap : Z := 0.
Definition preserve_tokens : option (list string) := None.
(* normalize_whitespace *)
Definition collapse_spaces : bool := true.
Definition collapse_newlines : bool := false.
Definition trim : bool := true.
(* normalize_quotes_and_accents *)
Definition map_smart_quotes : bool := true.
Definition normalize_apostrophes : bool := true.
Definition ascii_fallback : bool := false.
Definition accent_map : option (gmap string string) := None.
(* preprocess_pipeline *)
Definition do_ocr_correction : bool := false.
Definition do_unicode_normalize : bool := true.
Definition do_lowercase : bool := true.
Definition do_handle_broken : bool := true.
Definition do_split_sentences : bool := true.
Definition do_whitespace_normalize : bool := true.
Definition do_quote_normalize : bool := true.
Definition options : option (gmap string pyval) := None.
End Default.

(** The line break of a Python ["\n"]. *)
Definition nl : string := String "010"%char EmptyString.

(** The normalization forms the docstring of [normalize_unicode] lists
    (line 53: "form: one of 'NFC', 'NFD', 'NFKC', 'NFKD'"). *)
Definition canonical_forms : list string := ["NFC"; "NFD"; "NFKC"; "NFKD"].

Definition is_canonical_form (form : string) : bool :=
  bool_decide (form ∈ canonical_forms).

(** The segmentation methods the docstring of [split_sentences] names
    (line 88: "method: 'simple' (regex) or 'punkt'/'spacy' for model-based
    splitting"). *)
Definition supported_methods : list string := ["simple"; "punkt"; "spacy"].

Definition is_supported_method (method : string) : bool :=
  bool_decide (method ∈ supported_methods).

(** The error classes of the specification, none of which the source
    defines. *)
Definition spec_error_classes : list exn_class :=
  [InvalidFormError; UnsupportedMethodError; InvalidOptionError;
   CapabilityUnavailableError].

(** A call that ends the way a stub does: [NotImplementedError] reaches the
    caller, no value is returned, and the exception is none of the
    specification's. *)
Definition not_implemented {A} (r : outcome A * store) : Prop :=
  raised_class r = Some NotImplementedError
  ∧ returned r = None
  ∧ ∀ c, c ∈ spec_error_classes → raised_class r ≠ Some c.

(** ** The specification's side

    The definitions of this module follow the words of the specification, not
    the source; the theorems compare the source with them. *)
Module Spec.

(** The seven enable flags of a PipelineConfig (section 3), under the names
    of the parameters of [preprocess_pipeline]. *)
Record StageFlags : Type := {
  do_ocr_correction : bool;
  do_unicode_normalize : bool;
  do_quote_normalize : bool;
  do_handle_broken : bool;
  do_lowercase : bool;
  do_whitespace_normalize : bool;
  do_split_sentences : bool
}.

(** The flags of a call that passes none. *)
Definition default_flags : StageFlags :=
  {| do_ocr_correction := Default.do_ocr_correction;
     do_unicode_normalize := Default.do_unicode_normalize;
     do_quote_normalize := Default.do_quote_normalize;
     do_handle_broken := Default.do_handle_broken;
     do_lowercase := Default.do_lowercase;
     do_whitespace_normalize := Default.do_whitespace_normalize;
     do_split_sentences := Default.do_split_sentences |}.

Definition all_disabled : StageFlags :=
  {| do_ocr_correction := false; do_unicode_normalize := false;
     do_quote_normalize := false; do_handle_broken := false;
     do_lowercase := false; do_whitespace_normalize := false;
     do_split_sentences := false |}.

(** What travels through the pipeline: a single text until the sentence
    splitter has run, a sequence of sentences after it. *)
Inductive document : Type :=
| Text (t : string)
| Sentences (ss : list string).

(** Section 4.7: "each stage is skipped (pass-through) when its enable flag
    is false". *)
Definition stage (enabled : bool) (f : string → py string) (t : string)
  : py string :=
  if enabled then f t else mret t.

Section Composition.

(** The seven stages, each already given its options. *)
Variables ocr uni quo brk low wsp : string → py string.
Variable spl : string → py (list string).

(** Section 2: "raw text -> [OCR Corrector] -> Unicode Normalizer ->
    Quote/Accent Normalizer -> Broken-Word Rejoiner -> Case Folder ->
    Whitespace Normalizer -> Sentence Splitter". *)
Definition compose_enabled (fl : StageFlags) (text : string) : py document :=
  t1 ← stage (do_ocr_correction fl) ocr text;
  t2 ← stage (do_unicode_normalize fl) uni t1;
  t3 ← stage (do_quote_normalize fl) quo t2;
  t4 ← stage (do_handle_broken fl) brk t3;
  t5 ← stage (do_lowercase fl) low t4;
  t6 ← stage (do_whitespace_normalize fl) wsp t5;
  if do_split_sentences fl
  then ss ← spl t6; mret (Sentences ss)
  else mret (Text t6).

End Composition.

(** The composition over the stage functions of the module, each with the
    defaults of its signature (what a call of [preprocess_pipeline] that
    passes no option dictionary asks for). *)
Definition pipeline (fl : StageFlags) (text : string) : py document :=
  compose_enabled
    (λ t, ocr_correction t Default.model_path Default.use_remote
            Default.device Default.batch_size Default.verbose)
    (λ t, normalize_unicode t Default.form Default.remove_unsupported
            Default.allowed_categories)
    (λ t, normalize_quotes_and_accents t Default.map_smart_quotes
            Default.normalize_apostrophes Default.ascii_fallback
            Default.accent_map)
    (λ t, handle_broken_words t Default.join_hyphenated Default.max_line_gap
            Default.preserve_tokens)
    (λ t, lowercase t Default.aggressive)
    (λ t, normalize_whitespace t Default.collapse_spaces
            Default.collapse_newlines Default.trim)
    (λ t, split_sentences t Default.method Default.language
            Default.keep_line_breaks)
    fl text.

(** Section 8 words idempotence as a test,
    [f(f(t)) == f(t)]: Python evaluates the inner call, the outer call, the
    call on the right, and then compares. *)
Definition idempotence_test (f : string → py string) (t : string) : py bool :=
  once ← f t;
  twice ← f once;
  again ← f t;
  mret (bool_decide (twice = again)).

End Spec.

(** ** Inputs the specification names *)

Definition broken_libro : string :=
  "il libro è molto interes-" ++ nl ++ "sante.".

Definition broken_benessere : string :=
  "parole chiave: ben-" ++ nl ++ "essere".

Definition two_sentences : string := "Il gatto dorme. Il cane corre!".

(** A store in which the caller keeps the text it passes. *)
Definition caller_store (text : string) : store := {[ 0 := PyStr text ]}.

(** ** Calls and chains of calls *)

(** The message of the exception a computation raised, if it raised: what
    [str(e)] shows the caller. *)
Definition raised_message {A} (r : outcome A * store) : option string :=
  match r.1 with Returned _ => None | Raised e => Some (exn_msg e) end.

(** A call of one of the six functions of the module that take a text and
    are annotated to return a text, the arguments after [text] chosen. *)
Inductive text_call : Type :=
| call_ocr_correction (model_path : option string) (use_remote : bool)
    (device : string) (batch_size : Z) (verbose : bool)
| call_normalize_unicode (form : string) (remove_unsupported : bool)
    (allowed_categories : option (list string))
| call_lowercase (aggressive : bool)
| call_handle_broken_words (join_hyphenated : bool) (max_line_gap : Z)
    (preserve_tokens : option (list string))
| call_normalize_whitespace (collapse_spaces collapse_newlines trim : bool)
| call_normalize_quotes_and_accents (map_smart_quotes : bool)
    (normalize_apostrophes : bool) (ascii_fallback : bool)
    (accent_map : option (gmap string string)).

Definition run_call (c : text_call) (text : string) : py string :=
  match c with
  | call_ocr_correction model_path use_remote device batch_size verbose =>
      ocr_correction text model_path use_remote device batch_size verbose
  | call_normalize_unicode form remove_unsupported allowed_categories =>
      normalize_unicode text form remove_unsupported allowed_categories
  | call_lowercase aggressive => lowercase text aggressive
  | call_handle_broken_words join_hyphenated max_line_gap preserve_tokens =>
      handle_broken_words text join_hyphenated max_line_gap preserve_tokens
  | call_normalize_whitespace collapse_spaces collapse_newlines trim =>
      normalize_whitespace text collapse_spaces collapse_newlines trim
  | call_normalize_quotes_and_accents map_smart_quotes normalize_apostrophes
      ascii_fallback accent_map =>
      normalize_quotes_and_accents text map_smart_quotes
        normalize_apostrophes ascii_fallback accent_map
  end.

(** Nested calls, innermost first: [chain [f; g; h] t] is [h(g(f(t)))].
    Python evaluates the argument of a call before the call. *)
Fixpoint chain (cs : list text_call) (text : string) : py string :=
  match cs with
  | [] => mret text
  | c :: cs' => t ← run_call c text; chain cs' t
  end.

(** ** Computations: the equations of [py] *)

Section PyLaws.
Context {A B : Type}.

Lemma bind_returned (a : A) (k : A → py B) (st : store) :
  (mret a ≫= k) st = k a st.
Proof. reflexivity. Qed.

Lemma bind_raised (e : exn) (k : A → py B) (st : store) :
  (raise e ≫= k) st = (Raised e, st).
Proof. reflexivity. Qed.

Lemma bind_inv_returned (c : py A) (k : A → py B) (st st' : store) (b : B) :
  (c ≫= k) st = (Returned b, st') →
  ∃ a st1, c st = (Returned a, st1) ∧ k a st1 = (Returned b, st').
Proof.
  unfold mbind, py_bind, bind.
  destruct (c st) as [[a|e] st1]; intros H.
  - exists a, st1. split; [reflexivity | exact H].
  - discriminate H.
Qed.

Lemma raised_not_returned (r : outcome A * store) (c : exn_class) :
  raised_class r = Some c → returned r = None.
Proof.
  unfold raised_class, returned. destruct r.1; [discriminate | reflexivity].
Qed.

End PyLaws.

(** A stub's call is [not_implemented], whatever its message. *)
Lemma raise_not_implemented {A} (msg : string) (st : store) :
  not_implemented (raise (A := A) (Exn NotImplementedError msg) st).
Proof.
  split; [reflexivity | split; [by apply (raised_not_returned _ NotImplementedError) |]].
  intros c Hc. unfold spec_error_classes in Hc.
  cbn. intros [= <-].
  repeat (apply elem_of_cons in Hc as [Hc | Hc]; [discriminate Hc |]).
  by apply elem_of_nil in Hc.
Qed.

(** ** The composition of the specification, on its own *)

(** A disabled stage hands its text to what follows; an enabled stage is the
    stage function. *)
Lemma stage_disabled {B} (f : string → py string) (t : string)
    (k : string → py B) (st : store) :
  (Spec.stage false f t ≫= k) st = k t st.
Proof. reflexivity. Qed.

Lemma stage_enabled {B} (f : string → py string) (t : string)
    (k : string → py B) (st : store) :
  (Spec.stage true f t ≫= k) st = (f t ≫= k) st.
Proof. reflexivity. Qed.

Section CompositionFacts.
Variables ocr uni quo brk low wsp : string → py string.
Variable spl : string → py (list string).

(** With every stage disabled the document passes through unchanged,
    whatever the stages are. *)
Lemma compose_all_disabled (text : string) (st : store) :
  Spec.compose_enabled ocr uni quo brk low wsp spl Spec.all_disabled text st
  = (Returned (Spec.Text text), st).
Proof. reflexivity. Qed.

(** With the splitter alone enabled the pipeline is the splitter. *)
Lemma compose_split_only (text : string) (st : store) :
  Spec.compose_enabled ocr uni quo brk low wsp spl
    {| Spec.do_ocr_correction := false; Spec.do_unicode_normalize := false;
       Spec.do_quote_normalize := false; Spec.do_handle_broken := false;
       Spec.do_lowercase := false; Spec.do_whitespace_normalize := false;
       Spec.do_split_sentences := true |} text st
  = (ss ← spl text; mret (Spec.Sentences ss)) st.
Proof. reflexivity. Qed.

End CompositionFacts.

(** Stages that return are run in the order of section 2: each stage below
    appends its own mark, and the marks come out in that order. *)
Example compose_order :
  Spec.compose_enabled
    (λ t, mret (t ++ "1")) (λ t, mret (t ++ "2")) (λ t, mret (t ++ "3"))
    (λ t, mret (t ++ "4")) (λ t, mret (t ++ "5")) (λ t, mret (t ++ "6"))
    (λ t, mret [t ++ "7"])
    {| Spec.do_ocr_correction := true; Spec.do_unicode_normalize := true;
       Spec.do_quote_normalize := false; Spec.do_handle_broken := true;
       Spec.do_lowercase := true; Spec.do_whitespace_normalize := false;
       Spec.do_split_sentences := true |} "" ∅
  = (Returned (Spec.Sentences ["12457"]), ∅).
Proof. reflexivity. Qed.

(** ** The functions of the module, as written *)

(** C10. In the code as written every public function of the module
    ([ocr_correction], [normalize_unicode], [lowercase], [split_sentences],
    [handle_broken_words], [normalize_whitespace],
    [normalize_quotes_and_accents], [preprocess_pipeline]) raises
    [NotImplementedError] for every text, every combination of options and
    every store: no call returns a value, none raises one of the error types
    of the specification, and the store is left as it was. *)
Theorem every_function_raises_NotImplementedError (text : string) (st : store) :
  (∀ model_path use_remote device batch_size verbose,
     let r := ocr_correction text model_path use_remote device batch_size
                verbose st in
     not_implemented r ∧ final_store r = st)
  ∧ (∀ form remove_unsupported allowed_categories,
     let r := normalize_unicode text form remove_unsupported
                allowed_categories st in
     not_implemented r ∧ final_store r = st)
  ∧ (∀ aggressive,
     let r := lowercase text aggressive st in
     not_implemented r ∧ final_store r = st)
  ∧ (∀ method language keep_line_breaks,
     let r := split_sentences text method language keep_line_breaks st in
     not_implemented r ∧ final_store r = st)
  ∧ (∀ join_hyphenated max_line_gap preserve_tokens,
     let r := handle_broken_words text join_hyphenated max_line_gap
                preserve_tokens st in
     not_implemented r ∧ final_store r = st)
  ∧ (∀ collapse_spaces collapse_newlines trim,
     let r := normalize_whitespace text collapse_spaces collapse_newlines
                trim st in
     not_implemented r ∧ final_store r = st)
  ∧ (∀ map_smart_quotes normalize_apostrophes ascii_fallback accent_map,
     let r := normalize_quotes_and_accents text map_smart_quotes
                normalize_apostrophes ascii_fallback accent_map st in
     not_implemented r ∧ final_store r = st)
  ∧ (∀ do_ocr_correction do_unicode_normalize do_lowercase do_handle_broken
       do_split_sentences do_whitespace_normalize do_quote_normalize
       ocr_options unicode_options split_options broken_options
       whitespace_options quote_options,
     let r := preprocess_pipeline text do_ocr_correction do_unicode_normalize
                do_lowercase do_handle_broken do_split_sentences
                do_whitespace_normalize do_quote_normalize ocr_options
                unicode_options split_options broken_options
                whitespace_options quote_options st in
     not_implemented r ∧ final_store r = st).
Proof.
  repeat split; try reflexivity; apply raise_not_implemented.
Qed.

(** ** The pipeline *)

(** C1. The claim: the result of [preprocess_pipeline] is the composition of
    the enabled stages, a disabled stage passing the document on unchanged.
    The code: with every stage disabled, where the composition hands the text
    back as it came, [preprocess_pipeline] raises [NotImplementedError]; it
    returns nothing, for any text, any option dictionaries and any store. *)
Theorem preprocess_pipeline_is_not_the_composition
    (text : string)
    (ocr_options unicode_options split_options broken_options
       whitespace_options quote_options : option (gmap string pyval))
    (st : store) :
  let r := preprocess_pipeline text false false false false false false false
             ocr_options unicode_options split_options broken_options
             whitespace_options quote_options st in
  r = (Raised (Exn NotImplementedError
                 "Implement the preprocessing pipeline orchestration."), st)
  ∧ returned r = None
  ∧ returned (Spec.pipeline Spec.all_disabled text st) = Some (Spec.Text text).
Proof. repeat split. Qed.

(** With the default flags (only OCR correction off) the pipeline and the
    composition both raise, but not the same exception: the composition stops
    in its first enabled stage, the pipeline before any stage. *)
Lemma preprocess_pipeline_default_flags (text : string) (st : store) :
  (preprocess_pipeline text Default.do_ocr_correction
     Default.do_unicode_normalize Default.do_lowercase
     Default.do_handle_broken Default.do_split_sentences
     Default.do_whitespace_normalize Default.do_quote_normalize
     Default.options Default.options Default.options Default.options
     Default.options Default.options st).1
  = Raised (Exn NotImplementedError
              "Implement the preprocessing pipeline orchestration.")
  ∧ (Spec.pipeline Spec.default_flags text st).1
    = Raised (Exn NotImplementedError
                "Implement Unicode normalization and filtering.").
Proof. split; reflexivity. Qed.

(** A composition that returned cannot have begun with a stage that
    raises. *)
Ltac stage_raises H :=
  let H1 := fresh in
  apply bind_inv_returned in H as (? & ? & H1 & _);
  cbv in H1; discriminate H1.

(** Over the stages as written, the composition returns only when no stage
    is enabled, and then returns the text it was given: the first enabled
    stage would raise. *)
Lemma pipeline_returns_only_all_disabled
    (fl : Spec.StageFlags) (text : string) (st st' : store)
    (d : Spec.document) :
  Spec.pipeline fl text st = (Returned d, st') →
  fl = Spec.all_disabled ∧ d = Spec.Text text ∧ st' = st.
Proof.
  unfold Spec.pipeline, Spec.compose_enabled. intros H.
  destruct fl as [o u q b l w s]; simpl in H.
  destruct o; [stage_raises H | rewrite stage_disabled in H].
  destruct u; [stage_raises H | rewrite stage_disabled in H].
  destruct q; [stage_raises H | rewrite stage_disabled in H].
  destruct b; [stage_raises H | rewrite stage_disabled in H].
  destruct l; [stage_raises H | rewrite stage_disabled in H].
  destruct w; [stage_raises H | rewrite stage_disabled in H].
  destruct s; [stage_raises H |].
  by injection H as <- <-.
Qed.

(** ** Error classes *)

(** C2, as the specification states it, at [method="unknown"]: the call
    does not raise [UnsupportedMethodError]. *)
Lemma split_sentences_unknown_method_counterexample :
  let r := split_sentences two_sentences "unknown" Default.language
             Default.keep_line_breaks (caller_store two_sentences) in
  ¬ (raised_class r = Some UnsupportedMethodError
     ∧ returned r = None
     ∧ final_store r = caller_store two_sentences).
Proof. intros r [H _]. discriminate H. Qed.

(** C2, amended. For every input text, calling [split_sentences] with a
    method value that is not a supported method (such as ["unknown"]) raises
    [NotImplementedError] (the code has no [UnsupportedMethodError]), and the
    input is not partially mutated: the call produces no output and leaves
    the store, and with it the input text the caller holds, unchanged. *)
Theorem split_sentences_unsupported_method_raises
    (text method language : string) (keep_line_breaks : bool) (st : store) :
  is_supported_method method = false →
  let r := split_sentences text method language keep_line_breaks st in
  raised_class r = Some NotImplementedError
  ∧ returned r = None
  ∧ final_store r = st.
Proof. intros _. repeat split. Qed.

Lemma split_sentences_unsupported_method_raises_witness :
  is_supported_method "unknown" = false
  ∧ (let r := split_sentences two_sentences "unknown" Default.language
                Default.keep_line_breaks (caller_store two_sentences) in
     raised_class r = Some NotImplementedError
     ∧ returned r = None
     ∧ final_store r = caller_store two_sentences).
Proof.
  split.
  - reflexivity.
  - apply split_sentences_unsupported_method_raises. reflexivity.
Defined.

(** C3, as the specification states it, at [form="XYZ"]: the form is not
    canonical and yet the call does not raise [InvalidFormError]. *)
Lemma normalize_unicode_invalid_form_counterexample :
  let r := normalize_unicode two_sentences "XYZ" Default.remove_unsupported
             Default.allowed_categories ∅ in
  ¬ (raised_class r = Some InvalidFormError ↔ is_canonical_form "XYZ" = false).
Proof. intros r [_ H]. specialize (H eq_refl). discriminate H. Qed.

(** C3, amended. For every input text: when the form argument is not one of
    NFC, NFD, NFKC, NFKD, [normalize_unicode] raises [NotImplementedError],
    not [InvalidFormError]; when it is one of the four, [normalize_unicode]
    does not raise [InvalidFormError]. *)
Theorem normalize_unicode_never_InvalidFormError
    (text form : string) (remove_unsupported : bool)
    (allowed_categories : option (list string)) (st : store) :
  let r := normalize_unicode text form remove_unsupported allowed_categories
             st in
  (is_canonical_form form = false →
   raised_class r = Some NotImplementedError
   ∧ raised_class r ≠ Some InvalidFormError)
  ∧ (is_canonical_form form = true →
     raised_class r ≠ Some InvalidFormError).
Proof. repeat split; discriminate. Qed.

Lemma normalize_unicode_never_InvalidFormError_witness :
  (is_canonical_form "XYZ" = false
   ∧ raised_class (normalize_unicode two_sentences "XYZ" true None ∅)
     = Some NotImplementedError)
  ∧ (is_canonical_form "NFC" = true
     ∧ raised_class (normalize_unicode two_sentences "NFC" true None ∅)
       ≠ Some InvalidFormError).
Proof.
  pose proof (normalize_unicode_never_InvalidFormError
                two_sentences "XYZ" true None ∅) as [Hbad _].
  pose proof (normalize_unicode_never_InvalidFormError
                two_sentences "NFC" true None ∅) as [_ Hgood].
  split; split.
  - reflexivity.
  - apply Hbad. reflexivity.
  - reflexivity.
  - apply Hgood. reflexivity.
Defined.

(** ** Idempotence *)

(** C4. The claim: [normalize_whitespace(normalize_whitespace(t)) ==
    normalize_whitespace(t)] holds for every text.  The code: for every text,
    every choice of the three options and every store, the first application
    already raises [NotImplementedError]; the test has no outcome [True], and
    there is no normalized text to apply the function to again. *)
Theorem normalize_whitespace_idempotence_test_raises
    (t : string) (collapse_spaces collapse_newlines trim : bool) (st : store) :
  let f := λ x, normalize_whitespace x collapse_spaces collapse_newlines trim in
  Spec.idempotence_test f t st
  = (Raised (Exn NotImplementedError "Implement whitespace normalization."), st)
  ∧ returned (Spec.idempotence_test f t st) ≠ Some true
  ∧ returned (f t st) = None.
Proof. repeat split. discriminate. Qed.

(** C5. The claim: [normalize_unicode] applied twice with the same form
    yields what it yields applied once.  The code: for every text, every form
    (the four valid ones among them), every choice of the other options and
    every store, the first application raises [NotImplementedError]; it
    yields no result, and the test has no outcome [True]. *)
Theorem normalize_unicode_idempotence_test_raises
    (t form : string) (remove_unsupported : bool)
    (allowed_categories : option (list string)) (st : store) :
  let f := λ x, normalize_unicode x form remove_unsupported
                  allowed_categories in
  Spec.idempotence_test f t st
  = (Raised (Exn NotImplementedError
               "Implement Unicode normalization and filtering."), st)
  ∧ returned (Spec.idempotence_test f t st) ≠ Some true
  ∧ returned (f t st) = None.
Proof. repeat split. discriminate. Qed.

(** The test is not one that nothing passes: a function that returns and is
    idempotent passes it. *)
Example idempotence_test_passes :
  returned (Spec.idempotence_test (λ _, mret "a b") "a  b" ∅) = Some true.
Proof. reflexivity. Qed.

(** ** Broken words *)

(** C6. The claim: on ["il libro è molto interes-\nsante."] with
    [join_hyphenated=True] and [max_line_gap=0], [handle_broken_words]
    returns ["il libro è molto interessante."].  The code: the call raises
    [NotImplementedError] and returns nothing. *)
Theorem handle_broken_words_libro (st : store) :
  let r := handle_broken_words broken_libro true 0 Default.preserve_tokens
             st in
  r = (Raised (Exn NotImplementedError
                 "Implement broken-word rejoining logic."), st)
  ∧ returned r ≠ Some "il libro è molto interessante.".
Proof. split; [reflexivity | discriminate]. Qed.

(** C7. The claim: on ["parole chiave: ben-\nessere"],
    [handle_broken_words] merges the fragments into ["benessere"] when
    ["ben"] is not among [preserve_tokens], and returns the text with its
    hyphen and line break when it is.  The code: with [preserve_tokens]
    absent, empty or holding ["ben"], the call raises [NotImplementedError]
    and returns neither text. *)
Theorem handle_broken_words_benessere (st : store) :
  let call := λ preserve_tokens,
    handle_broken_words broken_benessere Default.join_hyphenated
      Default.max_line_gap preserve_tokens st in
  (∀ preserve_tokens, raised_class (call preserve_tokens)
                      = Some NotImplementedError)
  ∧ returned (call None) ≠ Some "parole chiave: benessere"
  ∧ returned (call (Some [])) ≠ Some "parole chiave: benessere"
  ∧ returned (call (Some ["ben"])) ≠ Some broken_benessere.
Proof. repeat split; discriminate. Qed.

(** ** Sentences *)

(** C8. The claim: on ["Il gatto dorme. Il cane corre!"] with
    [method="simple"] and [language="it"], [split_sentences] returns
    [["Il gatto dorme."; "Il cane corre!"]].  The code: the call raises
    [NotImplementedError] and returns no list. *)
Theorem split_sentences_gatto_cane (keep_line_breaks : bool) (st : store) :
  let r := split_sentences two_sentences "simple" "it" keep_line_breaks st in
  r = (Raised (Exn NotImplementedError
                 "Implement sentence splitting using the chosen method."), st)
  ∧ returned r ≠ Some ["Il gatto dorme."; "Il cane corre!"].
Proof. split; [reflexivity | discriminate]. Qed.

(** ** Case *)

(** C9. The claim: [lowercase] with [aggressive=True] lower-cases every
    text, and with [aggressive=False] lower-cases it but for acronym-like
    runs.  The code: for every text and either value of [aggressive] the call
    raises [NotImplementedError]; so ["Ciao"] does not become ["ciao"] under
    [aggressive=True], nor ["La NATO"] become ["la NATO"] under
    [aggressive=False]. *)
Theorem lowercase_returns_no_text (st : store) :
  (∀ text aggressive,
     lowercase text aggressive st
     = (Raised (Exn NotImplementedError
                  "Implement lowercasing with optional heuristics."), st))
  ∧ returned (lowercase "Ciao" true st) ≠ Some "ciao"
  ∧ returned (lowercase "La NATO" false st) ≠ Some "la NATO".
Proof. repeat split; discriminate. Qed.

(** ** Calls of the module in a caller's code *)


(** A call of a text function ends in [NotImplementedError] and leaves the
    store alone. *)
Lemma run_call_raises (c : text_call) (text : string) (st : store) :
  ∃ msg, run_call c text st = (Raised (Exn NotImplementedError msg), st).
Proof. destruct c; eexists; reflexivity. Qed.

(** X2. Whatever a caller does with the result of a text function of the
    module is never run: for every call [c] and every continuation [k], the
    computation [k(c(text))] ends with the exception of [c], returns nothing
    and leaves the store as it was before [c]. *)
Theorem run_call_aborts_continuation
    {B} (c : text_call) (text : string) (k : string → py B) (st : store) :
  let r := (run_call c text ≫= k) st in
  raised_class r = Some NotImplementedError
  ∧ raised_message r = raised_message (run_call c text st)
  ∧ returned r = None
  ∧ final_store r = st.
Proof.
  destruct (run_call_raises c text st) as [msg Hc].
  unfold mbind, py_bind, bind. rewrite Hc. repeat split.
Qed.

(** X3. A chain of nested calls stops in its innermost call: a non-empty
    chain ends exactly as its first call does on the text given, so that no
    later function is entered and the functions that follow do not matter. *)
Theorem chain_stops_at_first_call
    (c : text_call) (cs : list text_call) (text : string) (st : store) :
  chain (c :: cs) text st = run_call c text st.
Proof.
  destruct (run_call_raises c text st) as [msg Hc].
  cbn [chain]. unfold mbind, py_bind, bind. rewrite Hc. reflexivity.
Qed.
